(** * The example workflow of config/airflow/dags/example_dag.py

    The file is straight-line Python: it builds one dictionary, one [DAG],
    two [BashOperator]s and one [>>] edge.  Its body is embedded as a
    computation in a state-and-exception monad over the interpreter's
    object heap; the objects of the scheduler are heap cells, so that the
    reference [dag=dag] is a real reference and two units can share it. *)

From Stdlib Require Import ZArith String Ascii.
From stdpp Require Import gmap strings list fin_maps.

Local Open Scope Z_scope.

(** ** Exceptions the calls of the file can raise *)

Inductive exn : Type :=
  | ValueError
  | OverflowError
  | TypeError
  | DuplicateTaskIdFound
  | AirflowException.

(** ** [datetime.datetime] and [datetime.timedelta], with the range checks
    and the normalisation of the Python constructors (integer arguments,
    no time zone: the file passes neither floats nor [tzinfo]). *)

Record Datetime : Type := mkDatetime {
  year : Z; month : Z; day : Z;
  hour : Z; minute : Z; second : Z; microsecond : Z
}.

Record Timedelta : Type := mkTimedelta {
  days : Z; seconds : Z; microseconds : Z
}.

Definition is_leap (y : Z) : bool :=
  (y mod 4 =? 0) && (negb (y mod 100 =? 0) || (y mod 400 =? 0)).

Definition days_in_month (y m : Z) : Z :=
  if m =? 2 then (if is_leap y then 29 else 28)
  else if (m =? 4) || (m =? 6) || (m =? 9) || (m =? 11) then 30
  else 31.

Definition between (lo x hi : Z) : bool := (lo <=? x) && (x <=? hi).

(** [datetime(year, month, day, hour=0, minute=0, second=0, microsecond=0)] *)
Definition datetime (y m d h mi s us : Z) : exn + Datetime :=
  if between 1 y 9999 && between 1 m 12 && between 1 d (days_in_month y m)
     && between 0 h 23 && between 0 mi 59 && between 0 s 59
     && between 0 us 999999
  then inr (mkDatetime y m d h mi s us)
  else inl ValueError.

(** [timedelta(days=0, seconds=0, microseconds=0, milliseconds=0,
               minutes=0, hours=0, weeks=0)] *)
Definition timedelta (d s us ms mi h wk : Z) : exn + Timedelta :=
  let us' := us + 1000 * ms in
  let s' := s + 60 * mi + 3600 * h + us' / 1000000 in
  let d' := d + 7 * wk + s' / 86400 in
  if between (-999999999) d' 999999999
  then inr (mkTimedelta d' (s' mod 86400) (us' mod 1000000))
  else inl OverflowError.

Definition total_seconds (t : Timedelta) : Z :=
  days t * 86400 + seconds t.

(** ** Values a dictionary of the file holds *)

Inductive value : Type :=
  | VStr (s : string)
  | VBool (b : bool)
  | VInt (n : Z)
  | VDatetime (d : Datetime)
  | VTimedelta (t : Timedelta).

(** A dict display [{k1: v1, ..., kn: vn}] inserts its items from left to
    right, a later item replacing an earlier one with the same key. *)
Definition dict (items : list (string * value)) : gmap string value :=
  foldl (fun m kv => <[kv.1 := kv.2]> m) ∅ items.

(** ** The objects of the scheduler *)

Abbreviation loc := nat.

(** Modelled from the spec: the airflow package, whose classes the file
    instantiates, is not part of the repository.  A workflow descriptor
    has an identifier, a description, the default execution policy (the
    [default_args] dictionary), a schedule cadence and a catch-up flag;
    [task_dict] holds the execution units registered against it, by
    identifier.  Only the constructor arguments the file passes are
    fields. *)
Module Dag.
Record t : Type := mk {
  dag_id : string;
  default_args : gmap string value;
  description : option string;
  schedule_interval : option Timedelta;
  catchup : bool;
  task_dict : gmap string loc
}.

Definition add (task_id : string) (l : loc) (d : t) : t :=
  mk (dag_id d) (default_args d) (description d) (schedule_interval d)
     (catchup d) (<[task_id := l]> (task_dict d)).
End Dag.

(** Modelled from the spec: an execution unit has an identifier, a
    command string and a back-reference to its owning workflow
    descriptor, here the address of that object.  A precedence edge is
    kept at both of its ends, by identifier. *)
Module Task.
Record t : Type := mk {
  task_id : string;
  bash_command : string;
  dag : loc;
  upstream_task_ids : gset string;
  downstream_task_ids : gset string
}.

Definition add_downstream (i : string) (x : t) : t :=
  mk (task_id x) (bash_command x) (dag x) (upstream_task_ids x)
     ({[ i ]} ∪ downstream_task_ids x).

Definition add_upstream (i : string) (x : t) : t :=
  mk (task_id x) (bash_command x) (dag x) ({[ i ]} ∪ upstream_task_ids x)
     (downstream_task_ids x).
End Task.

Inductive object : Type :=
  | ODag (d : Dag.t)
  | OTask (x : Task.t).

(** The state a load runs in: the heap of live objects, addressed by
    position, and the wall clock that [datetime.now()] would read. *)
Record world : Type := mkWorld {
  heap : list object;
  clock : Z
}.

Definition empty_world : world := mkWorld [] 0.

Definition set_heap (h : list object) (w : world) : world :=
  mkWorld h (clock w).

(** ** The monad of a module body *)

Definition Load (A : Type) : Type := world -> exn + (A * world).

#[global] Instance Load_ret : MRet Load :=
  fun A x w => inr (x, w).

#[global] Instance Load_bind : MBind Load :=
  fun A B f m w =>
    match m w with
    | inl e => inl e
    | inr (x, w') => f x w'
    end.

Definition raise {A : Type} (e : exn) : Load A := fun _ => inl e.

(** A call into the Python library: it raises or returns, the world is
    not touched. *)
Definition py {A : Type} (r : exn + A) : Load A :=
  fun w => match r with inl e => inl e | inr x => inr (x, w) end.

Definition alloc (o : object) : Load loc :=
  fun w => inr (length (heap w), set_heap (heap w ++ [o]) w).

Definition store (l : loc) (o : object) : Load unit :=
  fun w => inr (tt, set_heap (<[l := o]> (heap w)) w).

Definition dag_at (w : world) (l : loc) : option Dag.t :=
  match heap w !! l with Some (ODag d) => Some d | _ => None end.

Definition task_at (w : world) (l : loc) : option Task.t :=
  match heap w !! l with Some (OTask x) => Some x | _ => None end.

Definition get_dag (l : loc) : Load Dag.t :=
  fun w => match dag_at w l with Some d => inr (d, w) | None => inl TypeError end.

Definition get_task (l : loc) : Load Task.t :=
  fun w => match task_at w l with Some x => inr (x, w) | None => inl TypeError end.

(** ** The three scheduler entry points the file calls *)

(** Modelled from the spec: the constructor of the airflow package's
    workflow class, which is not in the repository.
    [DAG(dag_id, default_args=, description=, schedule_interval=, catchup=)]
    makes a new workflow object that holds its arguments as passed and has
    no unit registered. *)
Definition DAG (dag_id : string) (default_args : gmap string value)
    (description : option string) (schedule_interval : option Timedelta)
    (catchup : bool) : Load loc :=
  alloc (ODag (Dag.mk dag_id default_args description schedule_interval
                      catchup ∅)).

(** Modelled from the spec: the constructor of the airflow package's
    shell-command unit, which is not in the repository.
    [BashOperator(task_id=, bash_command=, dag=)] makes a new unit that
    holds its arguments as passed, refers back to [dag], and is registered
    against that workflow under its identifier.  The package refuses an
    identifier the workflow already has, and so does this constructor: a
    load goes through because its two identifiers differ. *)
Definition BashOperator (task_id bash_command : string) (dag : loc) : Load loc :=
  d ← get_dag dag;
  if decide (task_id ∈ dom (Dag.task_dict d)) then raise DuplicateTaskIdFound
  else
    l ← alloc (OTask (Task.mk task_id bash_command dag ∅ ∅));
    _ ← store dag (ODag (Dag.add task_id l d));
    mret l.

(** Modelled from the spec: the [>>] operator of the airflow package's
    units, which is not in the repository.  [a >> b] adds the directed
    edge from [a] to [b]: [b]'s identifier enters [a]'s downstream set
    and [a]'s identifier enters [b]'s upstream set.  The package refuses
    an edge between units of two workflows; the expression evaluates to
    [b]. *)
Definition rshift (a b : loc) : Load loc :=
  x ← get_task a;
  y ← get_task b;
  if decide (Task.dag x = Task.dag y) then
    _ ← store a (OTask (Task.add_downstream (Task.task_id y) x));
    y' ← get_task b;
    _ ← store b (OTask (Task.add_upstream (Task.task_id x) y'));
    mret b
  else raise AirflowException.

Infix ">>" := rshift (at level 40, left associativity).

(** ** The module body *)

Definition dquote : string := String "034"%char EmptyString.

(** The names the module binds once its body has run. *)
Record namespace : Type := mkNamespace {
  ns_default_args : gmap string value;
  ns_dag : loc;
  ns_t1 : loc;
  ns_t2 : loc
}.

(** The dict display bound to [default_args]; its two constructor calls
    are evaluated first, in the order of the display. *)
Definition default_args (start_date : Datetime) (retry_delay : Timedelta)
    : gmap string value :=
  dict [
    ("owner", VStr "devarch");
    ("depends_on_past", VBool false);
    ("start_date", VDatetime start_date);
    ("email_on_failure", VBool false);
    ("email_on_retry", VBool false);
    ("retries", VInt 1);
    ("retry_delay", VTimedelta retry_delay)
  ].

Definition hello_command : string :=
  "echo " +:+ dquote +:+ "Hello from DevArch workflow!" +:+ dquote.

Definition example_dag : Load namespace :=
  start_date ← py (datetime 2024 1 1 0 0 0 0);
  retry_delay ← py (timedelta 0 0 0 0 5 0 0);          (* minutes=5 *)
  let default_args := default_args start_date retry_delay in
  schedule_interval ← py (timedelta 1 0 0 0 0 0 0);    (* days=1 *)
  dag ← DAG "example_devarch" default_args
            (Some "Example DAG for DevArch") (Some schedule_interval) false;
  t1 ← BashOperator "print_date" "date" dag;
  t2 ← BashOperator "hello_world" hello_command dag;
  _ ← t1 >> t2;
  mret (mkNamespace default_args dag t1 t2).

(** ** Reading the heap after a load *)

(** The objects a run allocated: those past the end of the old heap. *)
Definition created (w w' : world) : list object :=
  drop (length (heap w)) (heap w').

Definition units (os : list object) : list Task.t :=
  omap (fun o => match o with OTask x => Some x | ODag _ => None end) os.

Definition workflows (os : list object) : list Dag.t :=
  omap (fun o => match o with ODag d => Some d | OTask _ => None end) os.

Definition id_and_command (x : Task.t) : string * string :=
  (Task.task_id x, Task.bash_command x).

(** The unit a workflow has registered under an identifier. *)
Definition registered (w : world) (d : loc) (i : string) : option Task.t :=
  dg ← dag_at w d; l ← Dag.task_dict dg !! i; task_at w l.

(** The workflow a unit refers back to. *)
Definition owner (w : world) (x : Task.t) : option Dag.t :=
  dag_at w (Task.dag x).

(** The default policy entry that applies to a unit: the file gives its
    units no policy argument of their own, so it is the entry of the
    owning workflow's [default_args]. *)
Definition unit_default (w : world) (x : Task.t) (k : string) : option value :=
  dg ← owner w x; Dag.default_args dg !! k.

Definition downstream_of (w : world) (d : loc) (a : string) : gset string :=
  default ∅ (Task.downstream_task_ids <$> registered w d a).

Definition upstream_of (w : world) (d : loc) (b : string) : gset string :=
  default ∅ (Task.upstream_task_ids <$> registered w d b).

(** [a] precedes [b] in workflow [d]: the unit registered as [a] lists
    [b] downstream. *)
Definition precedes (w : world) (d : loc) (a b : string) : Prop :=
  b ∈ downstream_of w d a.

#[global] Instance precedes_dec w d a b : Decision (precedes w d a b).
Proof. unfold precedes. apply _. Defined.

(** What a scheduler that knows no addresses sees of a loaded module. *)
Record unit_view : Type := mkUnitView {
  uv_task_id : string;
  uv_bash_command : string;
  uv_owner : option string;
  uv_upstream : gset string;
  uv_downstream : gset string
}.

Record dag_view : Type := mkDagView {
  dv_dag_id : string;
  dv_default_args : gmap string value;
  dv_description : option string;
  dv_schedule_interval : option Timedelta;
  dv_catchup : bool;
  dv_task_ids : gset string
}.

Definition view_unit (w : world) (x : Task.t) : unit_view :=
  mkUnitView (Task.task_id x) (Task.bash_command x)
             (Dag.dag_id <$> owner w x)
             (Task.upstream_task_ids x) (Task.downstream_task_ids x).

Definition view_dag (d : Dag.t) : dag_view :=
  mkDagView (Dag.dag_id d) (Dag.default_args d) (Dag.description d)
            (Dag.schedule_interval d) (Dag.catchup d) (dom (Dag.task_dict d)).

Record observation : Type := mkObservation {
  ob_default_args : gmap string value;
  ob_dag : option dag_view;
  ob_t1 : option unit_view;
  ob_t2 : option unit_view;
  ob_workflows : list dag_view;
  ob_units : list unit_view
}.

(** The observation of a load started in [w]. *)
Definition observe (w : world) : exn + observation :=
  match example_dag w with
  | inl e => inl e
  | inr (ns, w') =>
      inr (mkObservation
             (ns_default_args ns)
             (view_dag <$> dag_at w' (ns_dag ns))
             (view_unit w' <$> task_at w' (ns_t1 ns))
             (view_unit w' <$> task_at w' (ns_t2 ns))
             (view_dag <$> workflows (created w w'))
             (view_unit w' <$> units (created w w')))
  end.

(** ** What one load leaves behind, for a heap of [n] objects before it *)

Definition the_start_date : Datetime := mkDatetime 2024 1 1 0 0 0 0.
Definition five_minutes : Timedelta := mkTimedelta 0 300 0.
Definition one_day : Timedelta := mkTimedelta 1 0 0.

Definition the_args : gmap string value :=
  default_args the_start_date five_minutes.

Definition the_dag (n : nat) : Dag.t :=
  Dag.mk "example_devarch" the_args (Some "Example DAG for DevArch")
         (Some one_day) false
         (<["hello_world" := (n + 2)%nat]> (<["print_date" := (n + 1)%nat]> ∅)).

Definition the_t1 (n : nat) : Task.t :=
  Task.mk "print_date" "date" n ∅ {["hello_world"]}.

Definition the_t2 (n : nat) : Task.t :=
  Task.mk "hello_world" hello_command n {["print_date"]} ∅.

Definition the_namespace (n : nat) : namespace :=
  mkNamespace the_args n (n + 1)%nat (n + 2)%nat.

Definition loaded (w : world) : world :=
  set_heap (heap w ++ [ODag (the_dag (length (heap w)));
                       OTask (the_t1 (length (heap w)));
                       OTask (the_t2 (length (heap w)))]) w.

Definition the_dag_view : dag_view :=
  mkDagView "example_devarch" the_args (Some "Example DAG for DevArch")
            (Some one_day) false {["print_date"; "hello_world"]}.

Definition the_t1_view : unit_view :=
  mkUnitView "print_date" "date" (Some "example_devarch") ∅ {["hello_world"]}.

Definition the_t2_view : unit_view :=
  mkUnitView "hello_world" hello_command (Some "example_devarch")
             {["print_date"]} ∅.

Definition the_observation : observation :=
  mkObservation the_args (Some the_dag_view) (Some the_t1_view)
                (Some the_t2_view) [the_dag_view] [the_t1_view; the_t2_view].

(** ** Durations as numbers *)




(** The seven keys of the [default_args] display. *)
Definition default_args_keys : gset string :=
  {[ "owner"; "depends_on_past"; "start_date"; "email_on_failure";
     "email_on_retry"; "retries"; "retry_delay" ]}.

(** ** Concrete runs *)

Example timedelta_five_minutes :
  timedelta 0 0 0 0 5 0 0 = inr (mkTimedelta 0 300 0).
Proof. reflexivity. Qed.

Example timedelta_carries_into_days :
  timedelta 0 (-1) 0 0 0 24 0 = inr (mkTimedelta 0 86399 0).
Proof. reflexivity. Qed.

Example timedelta_out_of_range :
  timedelta 0 0 0 0 0 0 142857143 = inl OverflowError.
Proof. reflexivity. Qed.

Example datetime_leap_day :
  datetime 2024 2 29 0 0 0 0 = inr (mkDatetime 2024 2 29 0 0 0 0).
Proof. reflexivity. Qed.

Example datetime_refuses_bad_day :
  datetime 2023 2 29 0 0 0 0 = inl ValueError.
Proof. reflexivity. Qed.

Example hello_command_quotes :
  String.length hello_command = 35%nat ∧
  String.get 5 hello_command = Some "034"%char ∧
  String.get 34 hello_command = Some "034"%char ∧
  String.substring 6 28 hello_command = "Hello from DevArch workflow!".
Proof. repeat split. Qed.

Example dict_later_item_wins :
  dict [("k", VInt 1); ("k", VInt 2)] !! "k" = Some (VInt 2).
Proof. reflexivity. Qed.

Example load_in_empty_world :
  example_dag empty_world =
    inr (mkNamespace the_args 0 1 2,
         mkWorld [ODag (the_dag 0); OTask (the_t1 0); OTask (the_t2 0)] 0).
Proof. vm_compute. reflexivity. Qed.

Example second_load_allocates_again :
  (_ ← example_dag; example_dag) empty_world =
    inr (the_namespace 3, loaded (loaded empty_world)).
Proof. vm_compute. reflexivity. Qed.

Example duplicate_identifier_refused :
  (dag ← DAG "d" ∅ None None false;
   _ ← BashOperator "a" "true" dag;
   BashOperator "a" "false" dag) empty_world = inl DuplicateTaskIdFound.
Proof. vm_compute. reflexivity. Qed.

Example edge_across_workflows_refused :
  (d1 ← DAG "d1" ∅ None None false;
   d2 ← DAG "d2" ∅ None None false;
   a ← BashOperator "a" "true" d1;
   b ← BashOperator "b" "true" d2;
   a >> b) empty_world = inl AirflowException.
Proof. vm_compute. reflexivity. Qed.

(** ** Running the primitives *)

Lemma bind_run {A B : Type} (m : Load A) (f : A -> Load B) w x w' :
  m w = inr (x, w') -> (m ≫= f) w = f x w'.
Proof. intros H. unfold mbind, Load_bind. by rewrite H. Qed.

Lemma heap_lookup_new (h os : list object) (k : nat) :
  (h ++ os) !! (length h + k)%nat = os !! k.
Proof. rewrite lookup_app_r; [|lia]. f_equal. lia. Qed.

Lemma heap_lookup_old (h os : list object) (l : nat) :
  (l < length h)%nat -> (h ++ os) !! l = h !! l.
Proof. apply lookup_app_l. Qed.

Lemma BashOperator_run w l d i c :
  dag_at w l = Some d ->
  Dag.task_dict d !! i = None ->
  BashOperator i c l w =
    inr (length (heap w),
         set_heap (<[l := ODag (Dag.add i (length (heap w)) d)]>
                     (heap w ++ [OTask (Task.mk i c l ∅ ∅)])) w).
Proof.
  intros Hd Hi. unfold BashOperator.
  rewrite (bind_run _ _ w d w); [|by unfold get_dag; rewrite Hd].
  rewrite decide_False; [|by rewrite not_elem_of_dom].
  reflexivity.
Qed.

Lemma rshift_run w a b x y :
  a ≠ b ->
  task_at w a = Some x ->
  task_at w b = Some y ->
  Task.dag x = Task.dag y ->
  rshift a b w =
    inr (b, set_heap (<[b := OTask (Task.add_upstream (Task.task_id x) y)]>
                        (<[a := OTask (Task.add_downstream (Task.task_id y) x)]>
                           (heap w))) w).
Proof.
  intros Hab Ha Hb Hxy. unfold rshift.
  rewrite (bind_run _ _ w x w); [|by unfold get_task; rewrite Ha].
  rewrite (bind_run _ _ w y w); [|by unfold get_task; rewrite Hb].
  rewrite decide_True by done.
  unfold mbind, Load_bind, store, get_task, task_at in *. simpl.
  rewrite list_lookup_insert_ne by done.
  destruct (heap w !! b) as [[|]|]; simplify_eq.
  reflexivity.
Qed.

(** Registering a unit against a workflow that lives at the end of the
    heap, [os] being the objects allocated after it. *)
Lemma BashOperator_fresh h c d os i cmd :
  Dag.task_dict d !! i = None ->
  BashOperator i cmd (length h) (mkWorld (h ++ ODag d :: os) c) =
    inr ((length h + S (length os))%nat,
         mkWorld (h ++ ODag (Dag.add i (length h + S (length os))%nat d)
                    :: os ++ [OTask (Task.mk i cmd (length h) ∅ ∅)]) c).
Proof.
  intros Hi. rewrite (BashOperator_run _ _ d); [|..|done].
  - unfold set_heap. cbn [heap clock]. rewrite length_app. cbn [length].
    do 2 f_equal.
    rewrite <- (Nat.add_0_r (length h)) at 1.
    rewrite <- app_assoc, insert_app_r. reflexivity.
  - unfold dag_at. cbn [heap]. by rewrite list_lookup_middle.
Qed.

Lemma rshift_fresh h c o x y :
  Task.dag x = Task.dag y ->
  rshift (length h + 1)%nat (length h + 2)%nat
         (mkWorld (h ++ [o; OTask x; OTask y]) c) =
    inr ((length h + 2)%nat,
         mkWorld (h ++ [o; OTask (Task.add_downstream (Task.task_id y) x);
                        OTask (Task.add_upstream (Task.task_id x) y)]) c).
Proof.
  intros Hxy. rewrite (rshift_run _ _ _ x y); [|lia|..|done].
  - unfold set_heap. cbn [heap clock]. by rewrite !insert_app_r.
  - unfold task_at. cbn [heap]. by rewrite heap_lookup_new.
  - unfold task_at. cbn [heap]. by rewrite heap_lookup_new.
Qed.

Lemma example_dag_run w :
  example_dag w = inr (the_namespace (length (heap w)), loaded w).
Proof.
  destruct w as [h c]. unfold example_dag, loaded, set_heap. cbn [heap clock].
  rewrite (bind_run _ _ _ the_start_date (mkWorld h c)) by done.
  rewrite (bind_run _ _ _ five_minutes (mkWorld h c)) by done.
  cbv zeta.
  rewrite (bind_run _ _ _ one_day (mkWorld h c)) by done.
  erewrite bind_run; [|reflexivity].
  unfold set_heap. cbn [heap clock].
  erewrite bind_run; [|by apply BashOperator_fresh].
  cbn [length app].
  erewrite bind_run; [|by apply BashOperator_fresh].
  cbn [length app].
  erewrite bind_run; [|by apply rshift_fresh].
  unfold Task.add_downstream, Task.add_upstream.
  cbn [Task.task_id Task.bash_command Task.dag Task.upstream_task_ids
       Task.downstream_task_ids].
  rewrite !(right_id_L ∅ (∪)). reflexivity.
Qed.

Lemma loaded_dag_at w :
  dag_at (loaded w) (length (heap w)) = Some (the_dag (length (heap w))).
Proof. unfold dag_at, loaded. cbn [heap set_heap]. by rewrite list_lookup_middle. Qed.

Lemma loaded_t1_at w :
  task_at (loaded w) (length (heap w) + 1) = Some (the_t1 (length (heap w))).
Proof. unfold task_at, loaded. cbn [heap set_heap]. by rewrite heap_lookup_new. Qed.

Lemma loaded_t2_at w :
  task_at (loaded w) (length (heap w) + 2) = Some (the_t2 (length (heap w))).
Proof. unfold task_at, loaded. cbn [heap set_heap]. by rewrite heap_lookup_new. Qed.

Lemma loaded_created w :
  created w (loaded w) =
    [ODag (the_dag (length (heap w))); OTask (the_t1 (length (heap w)));
     OTask (the_t2 (length (heap w)))].
Proof. unfold created, loaded. cbn [heap set_heap]. by rewrite drop_app_length. Qed.

Lemma loaded_units w :
  units (created w (loaded w)) =
    [the_t1 (length (heap w)); the_t2 (length (heap w))].
Proof. by rewrite loaded_created. Qed.

Lemma loaded_workflows w :
  workflows (created w (loaded w)) = [the_dag (length (heap w))].
Proof. by rewrite loaded_created. Qed.

Lemma loaded_owner_t1 w :
  owner (loaded w) (the_t1 (length (heap w))) = Some (the_dag (length (heap w))).
Proof. apply loaded_dag_at. Qed.

Lemma loaded_owner_t2 w :
  owner (loaded w) (the_t2 (length (heap w))) = Some (the_dag (length (heap w))).
Proof. apply loaded_dag_at. Qed.

Lemma loaded_registered w i :
  registered (loaded w) (length (heap w)) i =
    if decide (i = "print_date") then Some (the_t1 (length (heap w)))
    else if decide (i = "hello_world") then Some (the_t2 (length (heap w)))
    else None.
Proof.
  unfold registered. rewrite loaded_dag_at. cbn [mbind option_bind].
  unfold the_dag at 1. cbn [Dag.task_dict].
  repeat case_decide; subst.
  - rewrite lookup_insert_ne by done. rewrite lookup_insert_eq.
    cbn [mbind option_bind]. apply loaded_t1_at.
  - rewrite lookup_insert_eq. cbn [mbind option_bind]. apply loaded_t2_at.
  - by rewrite !lookup_insert_ne, lookup_empty by done.
Qed.

Lemma default_args_lookup sd rd k :
  default_args sd rd !! k =
    if decide (k = "retry_delay") then Some (VTimedelta rd)
    else if decide (k = "retries") then Some (VInt 1)
    else if decide (k = "email_on_retry") then Some (VBool false)
    else if decide (k = "email_on_failure") then Some (VBool false)
    else if decide (k = "start_date") then Some (VDatetime sd)
    else if decide (k = "depends_on_past") then Some (VBool false)
    else if decide (k = "owner") then Some (VStr "devarch")
    else None.
Proof.
  unfold default_args, dict. cbn [foldl fst snd].
  repeat (case_decide; [subst; by rewrite lookup_insert_eq
                       | rewrite lookup_insert_ne by done]).
  apply lookup_empty.
Qed.

Lemma loaded_precedes w a b :
  precedes (loaded w) (length (heap w)) a b ↔
    a = "print_date" ∧ b = "hello_world".
Proof.
  unfold precedes, downstream_of. rewrite loaded_registered.
  destruct (decide (a = "print_date")) as [->|Hp].
  { cbn. rewrite elem_of_singleton. tauto. }
  destruct (decide (a = "hello_world")) as [->|Hh]; cbn;
    rewrite elem_of_empty; intuition congruence.
Qed.

Lemma loaded_upstream w a b :
  a ∈ upstream_of (loaded w) (length (heap w)) b ↔
    a = "print_date" ∧ b = "hello_world".
Proof.
  unfold upstream_of. rewrite loaded_registered.
  destruct (decide (b = "print_date")) as [->|Hp].
  { cbn. rewrite elem_of_empty. intuition congruence. }
  destruct (decide (b = "hello_world")) as [->|Hh]; cbn;
    [rewrite elem_of_singleton | rewrite elem_of_empty]; intuition congruence.
Qed.

(** ** The claims about the loaded workflow *)
(** C1: from any heap, running the module body succeeds and allocates
    exactly two execution units, in this order: ['print_date'] running
    [date] and ['hello_world'] running [echo "Hello from DevArch
    workflow!"].  They are the units bound to [t1] and [t2], and the
    workflow has a unit registered under these two identifiers and under
    no other. *)
Theorem load_creates_exactly_two_units (w : world) :
  ∃ ns w',
    example_dag w = inr (ns, w') ∧
    id_and_command <$> units (created w w') =
      [("print_date", "date"); ("hello_world", hello_command)] ∧
    id_and_command <$> task_at w' (ns_t1 ns) = Some ("print_date", "date") ∧
    id_and_command <$> task_at w' (ns_t2 ns) =
      Some ("hello_world", hello_command) ∧
    ∀ i, id_and_command <$> registered w' (ns_dag ns) i =
           if decide (i = "print_date") then Some ("print_date", "date")
           else if decide (i = "hello_world")
                then Some ("hello_world", hello_command)
                else None.
Proof.
  exists (the_namespace (length (heap w))), (loaded w).
  split; [apply example_dag_run|]. cbn [the_namespace ns_t1 ns_t2 ns_dag].
  rewrite loaded_units, loaded_t1_at, loaded_t2_at.
  repeat split. intros i. rewrite loaded_registered.
  by repeat case_decide.
Qed.

(** C2: the precedence relation of the loaded workflow is the single
    edge from ['print_date'] (the unit bound to [t1]) to ['hello_world']
    (the unit bound to [t2]); the upstream sets record the same edge. *)
Theorem load_single_precedence_edge (w : world) :
  ∃ ns w',
    example_dag w = inr (ns, w') ∧
    Task.task_id <$> task_at w' (ns_t1 ns) = Some "print_date" ∧
    Task.task_id <$> task_at w' (ns_t2 ns) = Some "hello_world" ∧
    (∀ a b, precedes w' (ns_dag ns) a b ↔
              a = "print_date" ∧ b = "hello_world") ∧
    (∀ a b, a ∈ upstream_of w' (ns_dag ns) b ↔
              a = "print_date" ∧ b = "hello_world").
Proof.
  exists (the_namespace (length (heap w))), (loaded w).
  split; [apply example_dag_run|]. cbn [the_namespace ns_t1 ns_t2 ns_dag].
  rewrite loaded_t1_at, loaded_t2_at.
  split; [done|]. split; [done|]. split.
  - apply loaded_precedes.
  - apply loaded_upstream.
Qed.

(** C3: the default execution policy of the loaded workflow has retry
    count 1 and a retry delay of 5 minutes, the value of
    [timedelta(minutes=5)]: 0 days, 300 seconds, 0 microseconds. *)
Theorem default_policy_retries (w : world) :
  ∃ ns w' dg rd,
    example_dag w = inr (ns, w') ∧
    dag_at w' (ns_dag ns) = Some dg ∧
    Dag.default_args dg !! "retries" = Some (VInt 1) ∧
    Dag.default_args dg !! "retry_delay" = Some (VTimedelta rd) ∧
    timedelta 0 0 0 0 5 0 0 = inr rd ∧
    rd = mkTimedelta 0 300 0 ∧
    total_seconds rd = 5 * 60.
Proof.
  exists (the_namespace (length (heap w))), (loaded w),
         (the_dag (length (heap w))), five_minutes.
  split; [apply example_dag_run|]. split; [apply loaded_dag_at|].
  cbn [the_dag Dag.default_args]. unfold the_args.
  rewrite !default_args_lookup. done.
Qed.

(** C4: the loaded workflow is scheduled every [timedelta(days=1)],
    exactly one day, and its catch-up flag is false. *)
Theorem schedule_daily_no_catchup (w : world) :
  ∃ ns w' dg si,
    example_dag w = inr (ns, w') ∧
    dag_at w' (ns_dag ns) = Some dg ∧
    Dag.schedule_interval dg = Some si ∧
    timedelta 1 0 0 0 0 0 0 = inr si ∧
    si = mkTimedelta 1 0 0 ∧
    total_seconds si = 24 * 60 * 60 ∧
    Dag.catchup dg = false.
Proof.
  exists (the_namespace (length (heap w))), (loaded w),
         (the_dag (length (heap w))), one_day.
  split; [apply example_dag_run|]. split; [apply loaded_dag_at|]. done.
Qed.

(** C5: in the default execution policy of the loaded workflow both
    [email_on_failure] and [email_on_retry] are false. *)
Theorem notifications_disabled (w : world) :
  ∃ ns w' dg,
    example_dag w = inr (ns, w') ∧
    dag_at w' (ns_dag ns) = Some dg ∧
    Dag.default_args dg !! "email_on_failure" = Some (VBool false) ∧
    Dag.default_args dg !! "email_on_retry" = Some (VBool false).
Proof.
  exists (the_namespace (length (heap w))), (loaded w),
         (the_dag (length (heap w))).
  split; [apply example_dag_run|]. split; [apply loaded_dag_at|].
  cbn [the_dag Dag.default_args]. unfold the_args.
  rewrite !default_args_lookup. done.
Qed.

(** C6: the loaded workflow has identifier ['example_devarch'],
    description ['Example DAG for DevArch'], owner ['devarch'] and start
    date 2024-01-01 (midnight, the value of [datetime(2024, 1, 1)]). *)
Theorem descriptor_identity (w : world) :
  ∃ ns w' dg sd,
    example_dag w = inr (ns, w') ∧
    dag_at w' (ns_dag ns) = Some dg ∧
    Dag.dag_id dg = "example_devarch" ∧
    Dag.description dg = Some "Example DAG for DevArch" ∧
    Dag.default_args dg !! "owner" = Some (VStr "devarch") ∧
    Dag.default_args dg !! "start_date" = Some (VDatetime sd) ∧
    datetime 2024 1 1 0 0 0 0 = inr sd ∧
    sd = mkDatetime 2024 1 1 0 0 0 0.
Proof.
  exists (the_namespace (length (heap w))), (loaded w),
         (the_dag (length (heap w))), the_start_date.
  split; [apply example_dag_run|]. split; [apply loaded_dag_at|].
  cbn [the_dag Dag.default_args Dag.dag_id Dag.description]. unfold the_args.
  rewrite !default_args_lookup. done.
Qed.

(** C7: every unit the load allocates refers back to the address bound to
    [dag]; that address holds the workflow ['example_devarch'], the only
    workflow the load allocates, so [t1] and [t2] share one owner. *)
Theorem units_refer_to_one_workflow (w : world) :
  ∃ ns w' dg,
    example_dag w = inr (ns, w') ∧
    dag_at w' (ns_dag ns) = Some dg ∧
    Dag.dag_id dg = "example_devarch" ∧
    workflows (created w w') = [dg] ∧
    Forall (fun x => Task.dag x = ns_dag ns ∧ owner w' x = Some dg)
           (units (created w w')) ∧
    Task.dag <$> task_at w' (ns_t1 ns) = Some (ns_dag ns) ∧
    Task.dag <$> task_at w' (ns_t2 ns) = Some (ns_dag ns).
Proof.
  exists (the_namespace (length (heap w))), (loaded w),
         (the_dag (length (heap w))).
  split; [apply example_dag_run|]. split; [apply loaded_dag_at|].
  cbn [the_namespace ns_t1 ns_t2 ns_dag].
  rewrite loaded_units, loaded_workflows, loaded_t1_at, loaded_t2_at.
  split; [done|]. split; [done|]. split; [|done].
  repeat constructor; first [apply loaded_owner_t1 | apply loaded_owner_t2].
Qed.

(** C8: running the module body never raises, whatever the heap; every
    configured value reaches the workflow and the two units as the file
    wrote it (the dictionary equal to the display, the constructor results
    as the constructors returned them); the objects that existed before
    are all still there, unchanged, the clock is unchanged, and the heap
    has grown by exactly the three objects of the file. *)
Theorem load_passes_literals_through (w : world) :
  ∃ ns w' dg x1 x2 sd rd si,
    example_dag w = inr (ns, w') ∧
    datetime 2024 1 1 0 0 0 0 = inr sd ∧
    timedelta 0 0 0 0 5 0 0 = inr rd ∧
    timedelta 1 0 0 0 0 0 0 = inr si ∧
    ns_default_args ns = default_args sd rd ∧
    dag_at w' (ns_dag ns) = Some dg ∧
    Dag.dag_id dg = "example_devarch" ∧
    Dag.default_args dg = default_args sd rd ∧
    Dag.description dg = Some "Example DAG for DevArch" ∧
    Dag.schedule_interval dg = Some si ∧
    Dag.catchup dg = false ∧
    task_at w' (ns_t1 ns) = Some x1 ∧
    id_and_command x1 = ("print_date", "date") ∧
    task_at w' (ns_t2 ns) = Some x2 ∧
    id_and_command x2 = ("hello_world", hello_command) ∧
    clock w' = clock w ∧
    take (length (heap w)) (heap w') = heap w ∧
    length (heap w') = (length (heap w) + 3)%nat.
Proof.
  exists (the_namespace (length (heap w))), (loaded w),
         (the_dag (length (heap w))), (the_t1 (length (heap w))),
         (the_t2 (length (heap w))), the_start_date, five_minutes, one_day.
  split; [apply example_dag_run|].
  cbn [the_namespace ns_t1 ns_t2 ns_dag ns_default_args].
  rewrite loaded_dag_at, loaded_t1_at, loaded_t2_at.
  repeat (split; [done|]).
  unfold loaded. cbn [heap set_heap clock].
  split; [apply take_app_length|]. by rewrite length_app.
Qed.

(** C9: the default execution policy of the loaded workflow has
    [depends_on_past] false, and this is the entry that applies to every
    unit the load allocates. *)
Theorem depends_on_past_disabled (w : world) :
  ∃ ns w' dg,
    example_dag w = inr (ns, w') ∧
    dag_at w' (ns_dag ns) = Some dg ∧
    Dag.default_args dg !! "depends_on_past" = Some (VBool false) ∧
    Forall (fun x => unit_default w' x "depends_on_past" = Some (VBool false))
           (units (created w w')).
Proof.
  exists (the_namespace (length (heap w))), (loaded w),
         (the_dag (length (heap w))).
  split; [apply example_dag_run|]. split; [apply loaded_dag_at|].
  assert (Dag.default_args (the_dag (length (heap w))) !! "depends_on_past"
          = Some (VBool false)) as Hd.
  { cbn [the_dag Dag.default_args]. unfold the_args.
    by rewrite default_args_lookup. }
  split; [done|]. rewrite loaded_units.
  repeat constructor; unfold unit_default;
    by rewrite ?loaded_owner_t1, ?loaded_owner_t2.
Qed.

Lemma view_dag_the_dag n : view_dag (the_dag n) = the_dag_view.
Proof.
  unfold view_dag, the_dag, the_dag_view. cbn [Dag.dag_id Dag.default_args
    Dag.description Dag.schedule_interval Dag.catchup Dag.task_dict].
  f_equal.
Qed.

Lemma observe_loaded w : observe w = inr the_observation.
Proof.
  unfold observe. rewrite example_dag_run.
  cbn [the_namespace ns_t1 ns_t2 ns_dag ns_default_args].
  rewrite loaded_units, loaded_workflows, loaded_dag_at, loaded_t1_at,
    loaded_t2_at.
  cbn [fmap option_fmap option_map list_fmap]. unfold view_unit.
  rewrite loaded_owner_t1, loaded_owner_t2, view_dag_the_dag.
  reflexivity.
Qed.

(** C10: two loads, started from any two heaps and at any two clock
    readings, both succeed and show the same workflow, the same units and
    the same edges; in particular a second load after a first one shows
    what the first did. *)
Theorem load_deterministic (w1 w2 : world) :
  ∃ o, observe w1 = inr o ∧ observe w2 = inr o.
Proof. exists the_observation. split; apply observe_loaded. Qed.

(** ** Further properties of the module body *)

Lemma foldl_insert_miss (items : list (string * value))
    (m : gmap string value) (k : string) :
  k ∉ items.*1 ->
  foldl (fun m kv => <[kv.1 := kv.2]> m) m items !! k = m !! k.
Proof.
  revert m. induction items as [|[k' v'] items IH]; intros m Hk; [done|].
  cbn [foldl fst snd]. rewrite fmap_cons, not_elem_of_cons in Hk.
  destruct Hk as [Hne Hk]. cbn [fst] in Hne.
  rewrite IH by done. by rewrite lookup_insert_ne.
Qed.

Lemma foldl_insert_hit (items : list (string * value))
    (m : gmap string value) (k : string) (v : value) :
  NoDup items.*1 -> (k, v) ∈ items ->
  foldl (fun m kv => <[kv.1 := kv.2]> m) m items !! k = Some v.
Proof.
  revert m. induction items as [|[k' v'] items IH]; intros m Hnd Hin.
  { by apply elem_of_nil in Hin. }
  rewrite fmap_cons, NoDup_cons in Hnd. destruct Hnd as [Hk' Hnd].
  cbn [foldl fst snd] in *. apply elem_of_cons in Hin as [Heq|Hin].
  - simplify_eq. rewrite foldl_insert_miss by done. apply lookup_insert_eq.
  - by apply IH.
Qed.

Lemma foldl_insert_size (items : list (string * value))
    (m : gmap string value) :
  NoDup items.*1 -> (∀ k, k ∈ items.*1 -> m !! k = None) ->
  size (foldl (fun m kv => <[kv.1 := kv.2]> m) m items)
    = (size m + length items)%nat.
Proof.
  revert m. induction items as [|[k' v'] items IH]; intros m Hnd Hm.
  { cbn. lia. }
  rewrite fmap_cons, NoDup_cons in Hnd. destruct Hnd as [Hk' Hnd].
  cbn [foldl fst snd length] in *. rewrite IH; [|done|].
  - rewrite map_size_insert_None; [lia|]. apply Hm. rewrite fmap_cons. left.
  - intros k Hk. rewrite lookup_insert_ne.
    + apply Hm. rewrite fmap_cons. by right.
    + intros ->. done.
Qed.

(** A dict display whose keys are pairwise distinct keeps every item: a
    listed key gives back its value, a key that is not listed is missing,
    and the dictionary has as many entries as the display has items. *)
Theorem dict_display_distinct_keys (items : list (string * value)) :
  NoDup items.*1 ->
  (∀ k v, (k, v) ∈ items -> dict items !! k = Some v) ∧
  (∀ k, k ∉ items.*1 -> dict items !! k = None) ∧
  size (dict items) = length items.
Proof.
  intros Hnd. unfold dict. split; [|split].
  - intros k v Hin. by apply foldl_insert_hit.
  - intros k Hk. by rewrite foldl_insert_miss.
  - rewrite foldl_insert_size; [by rewrite map_size_empty|done|done].
Qed.

Lemma dict_display_distinct_keys_witness :
  NoDup [("retries", VInt 1); ("owner", VStr "devarch")].*1 ∧
  (∀ k v, (k, v) ∈ [("retries", VInt 1); ("owner", VStr "devarch")] ->
          dict [("retries", VInt 1); ("owner", VStr "devarch")] !! k = Some v) ∧
  (∀ k, k ∉ [("retries", VInt 1); ("owner", VStr "devarch")].*1 ->
        dict [("retries", VInt 1); ("owner", VStr "devarch")] !! k = None) ∧
  size (dict [("retries", VInt 1); ("owner", VStr "devarch")]) = 2%nat.
Proof.
  assert (NoDup [("retries", VInt 1); ("owner", VStr "devarch")].*1) as Hnd.
  { apply (bool_decide_unpack _). vm_compute. exact I. }
  split; [exact Hnd|].
  exact (dict_display_distinct_keys
           [("retries", VInt 1); ("owner", VStr "devarch")] Hnd).
Defined.

(** Whatever start date and retry delay are put in, [default_args] has
    exactly its seven keys: every other key, such as ['email'] or
    ['end_date'], is missing. *)
Theorem default_args_has_seven_keys (sd : Datetime) (rd : Timedelta) :
  dom (default_args sd rd) = default_args_keys ∧
  size (default_args sd rd) = 7%nat ∧
  (∀ k, k ∉ default_args_keys ↔ default_args sd rd !! k = None) ∧
  default_args sd rd !! "email" = None ∧
  default_args sd rd !! "end_date" = None.
Proof.
  assert (dom (default_args sd rd) = default_args_keys) as Hdom.
  { apply set_eq. intros k. rewrite elem_of_dom, default_args_lookup.
    unfold default_args_keys. rewrite !elem_of_union, !elem_of_singleton.
    repeat case_decide; subst; split; intros Hk;
      try (by eexists); try tauto; try (by destruct Hk). }
  split; [done|]. split; [|split].
  - rewrite <- size_dom, Hdom. reflexivity.
  - intros k. by rewrite <- Hdom, not_elem_of_dom.
  - by rewrite !default_args_lookup.
Qed.

Lemma loaded_length w :
  length (heap (loaded w)) = (length (heap w) + 3)%nat.
Proof. unfold loaded. cbn [heap set_heap]. by rewrite length_app. Qed.

Lemma loaded_old w l :
  (l < length (heap w))%nat -> heap (loaded w) !! l = heap w !! l.
Proof. intros Hl. unfold loaded. cbn [heap set_heap]. by apply lookup_app_l. Qed.

Lemma loaded_tc_precedes w a b :
  tc (precedes (loaded w) (length (heap w))) a b ->
  a = "print_date" ∧ b = "hello_world".
Proof.
  induction 1 as [a b Hab|a y b Hay _ IH].
  - by apply (proj1 (loaded_precedes w a b)).
  - apply loaded_precedes in Hay as [_ Hy]. destruct IH as [Hy' _].
    congruence.
Qed.

(** The precedence relation of the loaded workflow is already transitive
    and has no cycle: following edges from a unit never comes back to
    it. *)
Theorem precedence_acyclic (w : world) :
  ∃ ns w',
    example_dag w = inr (ns, w') ∧
    (∀ a b, tc (precedes w' (ns_dag ns)) a b ↔ precedes w' (ns_dag ns) a b) ∧
    (∀ a, ¬ tc (precedes w' (ns_dag ns)) a a).
Proof.
  exists (the_namespace (length (heap w))), (loaded w).
  split; [apply example_dag_run|]. cbn [the_namespace ns_dag]. split.
  - intros a b. split; [|apply tc_once].
    intros Hab. by apply (proj2 (loaded_precedes w a b)), (loaded_tc_precedes w).
  - intros a Haa. apply (loaded_tc_precedes w) in Haa as [-> Hne]. done.
Qed.

(** No edge of a unit the load allocates dangles: every identifier in a
    unit's upstream or downstream set is the identifier of a unit
    registered in the same workflow. *)
Theorem edges_end_at_registered_units (w : world) :
  ∃ ns w',
    example_dag w = inr (ns, w') ∧
    Forall (fun x => ∀ i,
              i ∈ Task.upstream_task_ids x ∪ Task.downstream_task_ids x ->
              ∃ y, registered w' (ns_dag ns) i = Some y ∧
                   Task.task_id y = i ∧ Task.dag y = Task.dag x)
           (units (created w w')).
Proof.
  exists (the_namespace (length (heap w))), (loaded w).
  split; [apply example_dag_run|]. cbn [the_namespace ns_dag].
  rewrite loaded_units.
  repeat constructor; intros i; cbn [the_t1 the_t2 Task.upstream_task_ids
    Task.downstream_task_ids]; rewrite elem_of_union, elem_of_singleton,
    elem_of_empty; intros [Hi|Hi]; try done; subst i;
    rewrite loaded_registered.
  - exists (the_t2 (length (heap w))). by rewrite decide_False, decide_True.
  - exists (the_t1 (length (heap w))). by rewrite decide_True.
Qed.

(** The workflow's registry and the units agree: a unit found under an
    identifier carries that identifier, refers back to the workflow and
    is one of the units the load allocated; and every unit the load
    allocated is found under its own identifier. *)
Theorem registry_matches_units (w : world) :
  ∃ ns w',
    example_dag w = inr (ns, w') ∧
    (∀ i x, registered w' (ns_dag ns) i = Some x ->
            Task.task_id x = i ∧ Task.dag x = ns_dag ns ∧
            x ∈ units (created w w')) ∧
    Forall (fun x => registered w' (ns_dag ns) (Task.task_id x) = Some x)
           (units (created w w')) ∧
    NoDup (Task.task_id <$> units (created w w')).
Proof.
  exists (the_namespace (length (heap w))), (loaded w).
  split; [apply example_dag_run|]. cbn [the_namespace ns_dag].
  rewrite loaded_units. split; [|split].
  - intros i x. rewrite loaded_registered.
    repeat case_decide; intros Hx; simplify_eq; (split; [done|]);
      (split; [done|]); set_solver.
  - repeat constructor; rewrite loaded_registered; cbn [the_t1 the_t2
      Task.task_id]; [by rewrite decide_True|].
    by rewrite decide_False, decide_True.
  - cbn [fmap list_fmap the_t1 the_t2 Task.task_id].
    apply (bool_decide_unpack _). vm_compute. exact I.
Qed.

(** The three objects the module binds to [dag], [t1] and [t2] are three
    different objects, and none of them is an object that existed before
    the load. *)
Theorem bound_objects_are_new (w : world) :
  ∃ ns w',
    example_dag w = inr (ns, w') ∧
    NoDup [ns_dag ns; ns_t1 ns; ns_t2 ns] ∧
    Forall (fun l => heap w !! l = None ∧ is_Some (heap w' !! l))
           [ns_dag ns; ns_t1 ns; ns_t2 ns].
Proof.
  exists (the_namespace (length (heap w))), (loaded w).
  split; [apply example_dag_run|]. cbn [the_namespace ns_dag ns_t1 ns_t2].
  split.
  - repeat constructor; rewrite ?elem_of_cons, ?elem_of_nil; lia.
  - repeat constructor; try (apply lookup_ge_None; lia);
      apply lookup_lt_is_Some; rewrite loaded_length; lia.
Qed.

(** Every entry of the default policy applies alike to the units the
    load allocates: for every key, each unit reaches, through its
    workflow, what the module's [default_args] holds under that key, and
    nothing for a key that is not there. *)
Theorem units_share_every_default (w : world) :
  ∃ ns w',
    example_dag w = inr (ns, w') ∧
    ∀ k, Forall (fun x => unit_default w' x k = ns_default_args ns !! k)
                (units (created w w')).
Proof.
  exists (the_namespace (length (heap w))), (loaded w).
  split; [apply example_dag_run|]. cbn [the_namespace ns_default_args].
  intros k. rewrite loaded_units.
  repeat constructor; unfold unit_default;
    by rewrite ?loaded_owner_t1, ?loaded_owner_t2.
Qed.

Lemma dag_at_old w l :
  (l < length (heap w))%nat -> dag_at (loaded w) l = dag_at w l.
Proof. intros Hl. unfold dag_at. by rewrite loaded_old. Qed.

Lemma task_at_old w l :
  (l < length (heap w))%nat -> task_at (loaded w) l = task_at w l.
Proof. intros Hl. unfold task_at. by rewrite loaded_old. Qed.

Lemma reloaded_registered w i :
  registered (loaded (loaded w)) (length (heap w)) i =
  registered (loaded w) (length (heap w)) i.
Proof.
  unfold registered.
  rewrite dag_at_old by (rewrite loaded_length; lia).
  rewrite loaded_dag_at. cbn [mbind option_bind].
  unfold the_dag. cbn [Dag.task_dict].
  destruct (decide (i = "hello_world")) as [->|Hh].
  { rewrite lookup_insert_eq. cbn [mbind option_bind].
    apply task_at_old. rewrite loaded_length. lia. }
  rewrite lookup_insert_ne by done.
  destruct (decide (i = "print_date")) as [->|Hp].
  { rewrite lookup_insert_eq. cbn [mbind option_bind].
    apply task_at_old. rewrite loaded_length. lia. }
  by rewrite lookup_insert_ne, lookup_empty.
Qed.

Lemma reloaded_created w :
  created w (loaded (loaded w)) =
    [ODag (the_dag (length (heap w))); OTask (the_t1 (length (heap w)));
     OTask (the_t2 (length (heap w)));
     ODag (the_dag (length (heap w) + 3)); OTask (the_t1 (length (heap w) + 3));
     OTask (the_t2 (length (heap w) + 3))].
Proof.
  unfold created. unfold loaded at 1. rewrite loaded_length.
  unfold loaded. cbn [heap set_heap].
  by rewrite <- app_assoc, drop_app_length.
Qed.

(** Running the module body a second time, in the world the first run
    left, succeeds: it registers its two identifiers against a new
    workflow and leaves the first run's workflow and units as they were,
    so that the heap then holds two workflows named ['example_devarch'],
    each with its own two units. *)
Theorem reload_makes_separate_workflow (w : world) :
  ∃ ns1 w1 ns2 w2,
    example_dag w = inr (ns1, w1) ∧
    (_ ← example_dag; example_dag) w = inr (ns2, w2) ∧
    NoDup [ns_dag ns1; ns_t1 ns1; ns_t2 ns1; ns_dag ns2; ns_t1 ns2; ns_t2 ns2] ∧
    dag_at w2 (ns_dag ns1) = dag_at w1 (ns_dag ns1) ∧
    (∀ i, registered w2 (ns_dag ns1) i = registered w1 (ns_dag ns1) i) ∧
    (∀ i, id_and_command <$> registered w2 (ns_dag ns2) i =
          id_and_command <$> registered w1 (ns_dag ns1) i) ∧
    Dag.dag_id <$> workflows (created w w2) =
      ["example_devarch"; "example_devarch"] ∧
    Task.dag <$> units (created w w2) =
      [ns_dag ns1; ns_dag ns1; ns_dag ns2; ns_dag ns2].
Proof.
  exists (the_namespace (length (heap w))), (loaded w),
         (the_namespace (length (heap (loaded w)))), (loaded (loaded w)).
  split; [apply example_dag_run|]. split.
  { rewrite (bind_run _ _ w _ (loaded w) (example_dag_run w)).
    apply example_dag_run. }
  cbn [the_namespace ns_dag ns_t1 ns_t2]. split; [|split; [|split; [|split]]].
  - rewrite loaded_length.
    repeat constructor; rewrite ?elem_of_cons, ?elem_of_nil; lia.
  - apply dag_at_old. rewrite loaded_length. lia.
  - apply reloaded_registered.
  - intros i. rewrite !loaded_registered. by repeat case_decide.
  - rewrite reloaded_created, loaded_length. done.
Qed.

(** ** The [timedelta] calls *)






